(** * caer.color: the HLS and HSV conversion modules

    A shallow embedding of [caer/color/_hls.py] and [caer/color/_hsv.py].

    Both modules are thin layers over three collaborators that live outside
    the two files: OpenCV's [cv.cvtColor], the tensor factory [to_tensor] and
    the sibling BGR module ([bgr2gray], [bgr2hsv], [bgr2hls], [bgr2lab]).
    Python values are references, so the embedding threads an object store
    through every call, together with a log of the calls made to the
    collaborators. *)

From Stdlib Require Import String Ascii DecimalString ZArith Lia.
From stdpp Require Import base option list.

Local Open Scope string_scope.

(** [length] is the length of a list throughout; strings are only built. *)
Local Abbreviation length := List.length.

(** ** Data model *)

(** Element types of a numpy buffer. *)
Inductive dtype := uint8 | uint16 | int32 | float32 | float64.

(** A numpy buffer: its [.shape] tuple, its element type and its elements
    (as raw bit patterns, in row-major order). *)
Record ndarray := mk_ndarray {
  shape : list nat;
  elt   : dtype;
  data  : list Z
}.

(** A Python object exposing [.shape]: a plain [np.ndarray] has no colour
    space tag ([cspace = None]), a caer [Tensor] carries one. *)
Record object := mk_object {
  arr    : ndarray;
  cspace : option string
}.

(** References into the object store. *)
Definition loc := nat.

(** Python exceptions. *)
Inductive exn :=
| ValueError (msg : string)
| IndexError
| OtherError (name : string).

(** Calls made to the collaborators, in the order they happen. *)
Inductive call :=
| CvtColor (src : loc) (code : Z)
| ToTensor (x : loc) (cs : string)
| Bgr2gray (x : loc)
| Bgr2hsv (x : loc)
| Bgr2hls (x : loc)
| Bgr2lab (x : loc).

(** The world a call runs in: the object store and the call log. *)
Record world := mk_world {
  heap  : list object;
  calls : list call
}.

(** ** The monad of Python computations: state plus exceptions *)

Definition M (A : Type) : Type := world -> (exn + A) * world.

#[global] Instance M_ret : MRet M := fun A (a : A) w => (inr a, w).

#[global] Instance M_bind : MBind M := fun A B (f : A -> M B) (m : M A) w =>
  match m w with
  | (inl e, w') => (inl e, w')
  | (inr a, w') => f a w'
  end.

Definition raise {A : Type} (e : exn) : M A := fun w => (inl e, w).

Definition lift {A : Type} (r : exn + A) : M A := fun w => (r, w).

(** Dereferencing; a reference that names no object has no attributes. *)
Definition deref (l : loc) : M object := fun w =>
  match heap w !! l with
  | Some o => (inr o, w)
  | None => (inl (OtherError "AttributeError"), w)
  end.

(** Allocation of a new object: it gets the next unused reference. *)
Definition alloc (o : object) : M loc := fun w =>
  (inr (length (heap w)), mk_world (heap w ++ [o]) (calls w)).

Definition log (c : call) : M unit := fun w =>
  (inr tt, mk_world (heap w) (calls w ++ [c])).

(** [img.shape] *)
Definition get_shape (img : loc) : M (list nat) :=
  o ← deref img; mret (shape (arr o)).

(** [t[-1]] on a tuple. *)
Definition index_neg1 (t : list nat) : M nat :=
  match last t with
  | Some x => mret x
  | None => raise IndexError
  end.

(** [str(n)] for a non-negative integer, as an f-string formats it. *)
Definition str (n : nat) : string := NilZero.string_of_uint (Nat.to_uint n).

(** The observable outcome of a call that returns a reference: the exception,
    or the object the returned reference names in the final store. *)
Definition outcome (r : (exn + loc) * world) : exn + option object :=
  match r with
  | (inl e, _) => inl e
  | (inr l, w) => inr (heap w !! l)
  end.

(** The buffer part of an outcome. *)
Definition outcome_buffer (r : (exn + loc) * world) : exn + option ndarray :=
  match outcome r with
  | inl e => inl e
  | inr o => inr (arr <$> o)
  end.

(** ** The collaborators

    Everything the two modules import: the conversion codes of
    [caer/color/_constants.py], opaque integers that only [cv.cvtColor]
    interprets; what OpenCV's conversion computes on a buffer for a code (a
    new buffer, or the error it raises); and what each function of
    [caer/color/_bgr.py] computes on a tensor. *)
Class Collaborators := {
  HLS2BGR : Z;
  HLS2RGB : Z;
  HSV2BGR : Z;
  HSV2RGB : Z;
  cvtColor_fn : ndarray -> Z -> exn + ndarray;
  bgr2gray_fn : object -> exn + object;
  bgr2hsv_fn : object -> exn + object;
  bgr2hls_fn : object -> exn + object;
  bgr2lab_fn : object -> exn + object
}.

Section Color.

Context `{Collaborators}.

(** *** Collaborators *)

(** OpenCV's [cv.cvtColor(img, code)], called without a destination
    argument: it reads the buffer of [img] and returns a newly allocated
    plain array, or raises what the conversion raises. *)
Definition cv_cvtColor (img : loc) (code : Z) : M loc :=
  _ ← log (CvtColor img code);
  o ← deref img;
  a ← lift (cvtColor_fn (arr o) code);
  alloc (mk_object a None).

(** Modelled from the spec: the tensor factory [to_tensor] of
    [caer/adorad], which the spec describes as [makeImage(buffer,
    colorSpaceTag)]: it wraps the buffer as it is in a new container
    stamped with the label. *)
Definition to_tensor (x : loc) (cs : string) : M loc :=
  _ ← log (ToTensor x cs);
  o ← deref x;
  alloc (mk_object (arr o) (Some cs)).

(** Modelled from the spec: the conversion functions of the sibling module
    [caer/color/_bgr.py]; each is a pure function of its argument that
    returns a new container and leaves its argument alone. *)
Definition sibling (c : call) (f : object -> exn + object) (x : loc) : M loc :=
  _ ← log c;
  o ← deref x;
  r ← lift (f o);
  alloc r.

Definition bgr2gray (x : loc) : M loc := sibling (Bgr2gray x) bgr2gray_fn x.
Definition bgr2hsv (x : loc) : M loc := sibling (Bgr2hsv x) bgr2hsv_fn x.
Definition bgr2hls (x : loc) : M loc := sibling (Bgr2hls x) bgr2hls_fn x.
Definition bgr2lab (x : loc) : M loc := sibling (Bgr2lab x) bgr2lab_fn x.

(** *** caer/color/_hls.py *)

(** [len(img.shape) == 3 and img.shape[-1] == 3]; [and] evaluates its
    second operand only when the first is true. *)
Definition _is_hls_image (img : loc) : M bool :=
  s ← get_shape img;
  if (length s =? 3)%nat then
    s' ← get_shape img;
    c ← index_neg1 s';
    mret (c =? 3)%nat
  else mret false.

Definition hls2rgb (img : loc) : M loc :=
  ok ← _is_hls_image img;
  if negb ok then
    s ← get_shape img;
    raise (ValueError ("Tensor of shape 3 expected. Found shape " ++ str (length s) ++ ". This function converts a HLS Tensor to its RGB counterpart"))
  else
    im ← cv_cvtColor img HLS2RGB;
    to_tensor im "rgb".

Definition hls2bgr (img : loc) : M loc :=
  ok ← _is_hls_image img;
  if negb ok then
    s ← get_shape img;
    raise (ValueError ("Tensor of shape 3 expected. Found shape " ++ str (length s) ++ ". This function converts a HLS Tensor to its BGR counterpart"))
  else
    im ← cv_cvtColor img HLS2BGR;
    to_tensor im "bgr".

Definition hls2gray (img : loc) : M loc :=
  ok ← _is_hls_image img;
  if negb ok then
    s ← get_shape img;
    raise (ValueError ("Tensor of shape 3 expected. Found shape " ++ str (length s) ++ ". This function converts a HLS Tensor to its Grayscale counterpart"))
  else
    bgr ← hls2bgr img;
    im ← bgr2gray bgr;
    to_tensor im "gray".

Definition hls2hsv (img : loc) : M loc :=
  ok ← _is_hls_image img;
  if negb ok then
    s ← get_shape img;
    raise (ValueError ("Tensor of shape 3 expected. Found shape " ++ str (length s) ++ ". This function converts a HLS Tensor to its LAB counterpart"))
  else
    bgr ← hls2bgr img;
    im ← bgr2hsv bgr;
    to_tensor im "hsv".

Definition hls2lab (img : loc) : M loc :=
  ok ← _is_hls_image img;
  if negb ok then
    s ← get_shape img;
    raise (ValueError ("Tensor of shape 3 expected. Found shape " ++ str (length s) ++ ". This function converts a HLS Tensor to its LAB counterpart"))
  else
    bgr ← hls2bgr img;
    im ← bgr2lab bgr;
    to_tensor im "lab".

(** *** caer/color/_hsv.py *)

Definition _is_hsv_image (img : loc) : M bool :=
  s ← get_shape img;
  if (length s =? 3)%nat then
    s' ← get_shape img;
    c ← index_neg1 s';
    mret (c =? 3)%nat
  else mret false.

Definition hsv2rgb (img : loc) : M loc :=
  ok ← _is_hsv_image img;
  if negb ok then
    s ← get_shape img;
    raise (ValueError ("Tensor of shape 3 expected. Found shape " ++ str (length s) ++ ". This function converts a HSV Tensor to its RGB counterpart"))
  else
    im ← cv_cvtColor img HSV2RGB;
    to_tensor im "rgb".

Definition hsv2bgr (img : loc) : M loc :=
  ok ← _is_hsv_image img;
  if negb ok then
    s ← get_shape img;
    raise (ValueError ("Tensor of shape 3 expected. Found shape " ++ str (length s) ++ ". This function converts a HSV Tensor to its BGR counterpart"))
  else
    im ← cv_cvtColor img HSV2BGR;
    to_tensor im "bgr".

Definition hsv2gray (img : loc) : M loc :=
  ok ← _is_hsv_image img;
  if negb ok then
    s ← get_shape img;
    raise (ValueError ("Tensor of shape 3 expected. Found shape " ++ str (length s) ++ ". This function converts a HSV Tensor to its Grayscale counterpart"))
  else
    bgr ← hsv2bgr img;
    im ← bgr2gray bgr;
    to_tensor im "gray".

Definition hsv2hls (img : loc) : M loc :=
  ok ← _is_hsv_image img;
  if negb ok then
    s ← get_shape img;
    raise (ValueError ("Tensor of shape 3 expected. Found shape " ++ str (length s) ++ ". This function converts a HSV Tensor to its HLS counterpart"))
  else
    bgr ← hsv2bgr img;
    im ← bgr2hls bgr;
    to_tensor im "hls".

Definition hsv2lab (img : loc) : M loc :=
  ok ← _is_hsv_image img;
  if negb ok then
    s ← get_shape img;
    raise (ValueError ("Tensor of shape 3 expected. Found shape " ++ str (length s) ++ ". This function converts a HSV Tensor to its LAB counterpart"))
  else
    bgr ← hsv2bgr img;
    im ← bgr2lab bgr;
    to_tensor im "lab".

End Color.

(** ** The public interface

    The ten names the two [__all__] lists export, and the function behind
    each. *)
Inductive conversion :=
| Hls2rgb | Hls2bgr | Hls2lab | Hls2gray | Hls2hsv
| Hsv2rgb | Hsv2bgr | Hsv2lab | Hsv2gray | Hsv2hls.

Definition convert `{Collaborators} (c : conversion) : loc -> M loc :=
  match c with
  | Hls2rgb => hls2rgb | Hls2bgr => hls2bgr | Hls2lab => hls2lab
  | Hls2gray => hls2gray | Hls2hsv => hls2hsv
  | Hsv2rgb => hsv2rgb | Hsv2bgr => hsv2bgr | Hsv2lab => hsv2lab
  | Hsv2gray => hsv2gray | Hsv2hls => hsv2hls
  end.

(** The colour space a function's name and docstring declare as its
    destination, as a tag. *)
Definition destination (c : conversion) : string :=
  match c with
  | Hls2rgb | Hsv2rgb => "rgb"
  | Hls2bgr | Hsv2bgr => "bgr"
  | Hls2gray | Hsv2gray => "gray"
  | Hls2hsv => "hsv"
  | Hsv2hls => "hls"
  | Hls2lab | Hsv2lab => "lab"
  end.

(** The source and destination spaces as the docstrings spell them
    ("Converts a HLS Tensor to its Grayscale version"). *)
Definition source_name (c : conversion) : string :=
  match c with
  | Hls2rgb | Hls2bgr | Hls2lab | Hls2gray | Hls2hsv => "HLS"
  | Hsv2rgb | Hsv2bgr | Hsv2lab | Hsv2gray | Hsv2hls => "HSV"
  end.

Definition destination_name (c : conversion) : string :=
  match c with
  | Hls2rgb | Hsv2rgb => "RGB"
  | Hls2bgr | Hsv2bgr => "BGR"
  | Hls2gray | Hsv2gray => "Grayscale"
  | Hls2hsv => "HSV"
  | Hsv2hls => "HLS"
  | Hls2lab | Hsv2lab => "LAB"
  end.

(** The destination each call site's message names. *)
Definition message_destination (c : conversion) : string :=
  match c with
  | Hls2hsv => "LAB"
  | _ => destination_name c
  end.

(** The conversions that go through BGR. *)
Definition chained (c : conversion) : bool :=
  match c with
  | Hls2rgb | Hls2bgr | Hsv2rgb | Hsv2bgr => false
  | _ => true
  end.

(** The module's validator and its direct converter to BGR, with the code
    that converter hands to OpenCV. *)
Definition validator `{Collaborators} (c : conversion) : loc -> M bool :=
  match c with
  | Hls2rgb | Hls2bgr | Hls2lab | Hls2gray | Hls2hsv => _is_hls_image
  | Hsv2rgb | Hsv2bgr | Hsv2lab | Hsv2gray | Hsv2hls => _is_hsv_image
  end.

Definition to_bgr `{Collaborators} (c : conversion) : loc -> M loc :=
  match c with
  | Hls2rgb | Hls2bgr | Hls2lab | Hls2gray | Hls2hsv => hls2bgr
  | Hsv2rgb | Hsv2bgr | Hsv2lab | Hsv2gray | Hsv2hls => hsv2bgr
  end.

Definition to_bgr_code `{Collaborators} (c : conversion) : Z :=
  match c with
  | Hls2rgb | Hls2bgr | Hls2lab | Hls2gray | Hls2hsv => HLS2BGR
  | Hsv2rgb | Hsv2bgr | Hsv2lab | Hsv2gray | Hsv2hls => HSV2BGR
  end.

(** The code a conversion hands to OpenCV: the direct code for the two
    direct destinations, the code to BGR for the chained ones. *)
Definition cvt_code `{Collaborators} (c : conversion) : Z :=
  match c with
  | Hls2rgb => HLS2RGB
  | Hsv2rgb => HSV2RGB
  | _ => to_bgr_code c
  end.

(** The function of the BGR module a chained conversion ends with, what that
    function computes, and the entry it leaves in the call log. *)
Definition from_bgr `{Collaborators} (c : conversion) : loc -> M loc :=
  match c with
  | Hls2gray | Hsv2gray => bgr2gray
  | Hls2hsv => bgr2hsv
  | Hsv2hls => bgr2hls
  | _ => bgr2lab
  end.

Definition from_bgr_fn `{Collaborators} (c : conversion) : object -> exn + object :=
  match c with
  | Hls2gray | Hsv2gray => bgr2gray_fn
  | Hls2hsv => bgr2hsv_fn
  | Hsv2hls => bgr2hls_fn
  | _ => bgr2lab_fn
  end.

Definition from_bgr_call (c : conversion) : loc -> call :=
  match c with
  | Hls2gray | Hsv2gray => Bgr2gray
  | Hls2hsv => Bgr2hsv
  | Hsv2hls => Bgr2hls
  | _ => Bgr2lab
  end.

(** The admission condition on a shape tuple:
    [len(shape) == 3 and shape[-1] == 3]. *)
Definition admissible (s : list nat) : Prop := length s = 3 /\ last s = Some 3.

Definition admissibleb (s : list nat) : bool :=
  (length s =? 3)%nat && match last s with Some c => (c =? 3)%nat | None => false end.

(** The message every call site builds, for a source and a destination
    name and the dimensionality found. *)
Definition shape_message (src dst : string) (n : nat) : string :=
  "Tensor of shape 3 expected. Found shape " ++ str n ++
  ". This function converts a " ++ src ++ " Tensor to its " ++ dst ++ " counterpart".

(** A call is rejected at the shape gate when it raises [ValueError] and
    leaves the world, call log included, as it found it. *)
Definition shape_rejected (r : (exn + loc) * world) (w : world) : Prop :=
  exists msg, r = (inl (ValueError msg), w).

(** Height and width of a shape, and its channel count. *)
Definition spatial (s : list nat) : list nat := take 2 s.
Definition channels (s : list nat) : option nat := s !! 2.

(** Modelled from the spec: what section 4.2 promises of the conversions the
    modules delegate to, OpenCV's and the BGR module's: a conversion of a
    three-channel image never changes height and width, and the result has
    three channels whenever its destination is a colour space. *)
Record shape_contract `{Collaborators} : Prop := {
  cvt_keeps : forall a code a',
    In code [HLS2BGR; HLS2RGB; HSV2BGR; HSV2RGB] ->
    admissible (shape a) ->
    cvtColor_fn a code = inr a' ->
    admissible (shape a') /\ spatial (shape a') = spatial (shape a);
  gray_keeps : forall o g,
    admissible (shape (arr o)) ->
    bgr2gray_fn o = inr g ->
    spatial (shape (arr g)) = spatial (shape (arr o));
  colour_keeps : forall f o g,
    In f [bgr2hsv_fn; bgr2hls_fn; bgr2lab_fn] ->
    admissible (shape (arr o)) ->
    f o = inr g ->
    admissible (shape (arr g)) /\ spatial (shape (arr g)) = spatial (shape (arr o))
}.

(** ** A concrete set of collaborators

    Stand-ins that behave like the real ones where the properties below
    look: OpenCV converts 8-bit and 32-bit float buffers only and rejects an
    empty one; the conversions keep height and width. The arithmetic on the
    elements is a placeholder. *)
Module Demo.

Definition supported (d : dtype) : bool :=
  match d with uint8 | float32 => true | _ => false end.

Definition cvt (a : ndarray) (code : Z) : exn + ndarray :=
  if negb (supported (elt a)) then inl (OtherError "cv2.error: unsupported depth")
  else if forallb (Nat.ltb 0) (shape a) then
    inr (mk_ndarray (shape a) (elt a) (map (fun v => (v + code) mod 256)%Z (data a)))
  else inl (OtherError "cv2.error: empty source").

Definition gray (o : object) : exn + object :=
  inr (mk_object (mk_ndarray (take 2 (shape (arr o))) (elt (arr o))
                   (take (foldr Nat.mul 1 (take 2 (shape (arr o)))) (data (arr o))))
         (Some "gray")).

Definition retag (cs : string) (o : object) : exn + object :=
  inr (mk_object (mk_ndarray (take 2 (shape (arr o)) ++ [3]) (elt (arr o)) (rev (data (arr o))))
         (Some cs)).

#[export] Instance collaborators : Collaborators := {|
  HLS2BGR := 60; HLS2RGB := 61; HSV2BGR := 54; HSV2RGB := 55;
  cvtColor_fn := cvt;
  bgr2gray_fn := gray;
  bgr2hsv_fn := retag "hsv";
  bgr2hls_fn := retag "hls";
  bgr2lab_fn := retag "lab"
|}.

(** The same collaborators with a BGR module that raises on every call. *)
Definition refusing : Collaborators := {|
  HLS2BGR := 60; HLS2RGB := 61; HSV2BGR := 54; HSV2RGB := 55;
  cvtColor_fn := cvt;
  bgr2gray_fn := fun _ => inl (OtherError "bgr2gray failed");
  bgr2hsv_fn := fun _ => inl (OtherError "bgr2hsv failed");
  bgr2hls_fn := fun _ => inl (OtherError "bgr2hls failed");
  bgr2lab_fn := fun _ => inl (OtherError "bgr2lab failed")
|}.

(** A 2x2 image with three channels, the same pixels as a 2x6 matrix, the
    same three-channel image as 64-bit floats, and an empty image. *)
Definition pixels : list Z := [10; 20; 30; 40; 50; 60; 70; 80; 90; 100; 110; 120]%Z.
Definition img3 : object := mk_object (mk_ndarray [2; 2; 3] uint8 pixels) (Some "hls").
Definition img2 : object := mk_object (mk_ndarray [2; 6] uint8 pixels) None.
Definition img64 : object := mk_object (mk_ndarray [2; 2; 3] float64 pixels) (Some "hls").
Definition img0 : object := mk_object (mk_ndarray [0; 0; 3] uint8 []) None.

(** A store holding the four, with an empty call log. *)
Definition w0 : world := mk_world [img3; img2; img64; img0] [].

End Demo.

(** ** Running the primitives *)

Local Close Scope string_scope.

Section Running.

Context `{Collaborators}.

Lemma run_bind {A B} (m : M A) (f : A -> M B) (w : world) :
  (m ≫= f) w =
  match m w with
  | (inl e, w') => (inl e, w')
  | (inr a, w') => f a w'
  end.
Proof. reflexivity. Qed.

Lemma lookup_alloc (h : list object) (x : object) (t : list object) :
  (h ++ x :: t) !! length h = Some x.
Proof. apply list_lookup_middle. reflexivity. Qed.

Lemma lookup_alloc2 (h : list object) (x y : object) (t : list object) :
  (h ++ x :: y :: t) !! S (length h) = Some y.
Proof.
  rewrite lookup_app_r by lia.
  replace (S (length h) - length h) with 1 by lia. reflexivity.
Qed.

Lemma lookup_new (h t : list object) (i k : nat) :
  i = length h + k -> (h ++ t) !! i = t !! k.
Proof.
  intros ->. rewrite lookup_app_r by lia. f_equal. lia.
Qed.

Lemma lookup_old (h t : list object) (l : loc) (o : object) :
  h !! l = Some o -> (h ++ t) !! l = Some o.
Proof. intros Hl. apply lookup_app_l_Some. exact Hl. Qed.

Lemma deref_run (l : loc) (w : world) (o : object) :
  heap w !! l = Some o -> deref l w = (inr o, w).
Proof. intros Hl. unfold deref. rewrite Hl. reflexivity. Qed.

Lemma get_shape_run (img : loc) (w : world) (o : object) :
  heap w !! img = Some o -> get_shape img w = (inr (shape (arr o)), w).
Proof.
  intros Hl. unfold get_shape. rewrite run_bind, (deref_run _ _ _ Hl). reflexivity.
Qed.

Lemma admissibleb_spec (s : list nat) : admissibleb s = true <-> admissible s.
Proof.
  unfold admissibleb, admissible. rewrite andb_true_iff, Nat.eqb_eq.
  destruct (last s) as [c|]; [rewrite Nat.eqb_eq | ]; split; intros [H1 H2];
    split; congruence.
Qed.

Lemma admissibleb_false (s : list nat) : admissibleb s = false <-> ~ admissible s.
Proof.
  rewrite <- admissibleb_spec. destruct (admissibleb s); split; congruence.
Qed.

Lemma is_hls_image_run (img : loc) (w : world) (o : object) :
  heap w !! img = Some o ->
  _is_hls_image img w = (inr (admissibleb (shape (arr o))), w).
Proof.
  intros Hl. unfold _is_hls_image, admissibleb.
  rewrite run_bind, (get_shape_run _ _ _ Hl).
  destruct (length (shape (arr o)) =? 3)%nat eqn:Hlen; [|reflexivity].
  rewrite run_bind, (get_shape_run _ _ _ Hl). unfold index_neg1.
  destruct (last (shape (arr o))) as [c|] eqn:Hlast; [reflexivity|].
  apply last_None in Hlast. rewrite Hlast in Hlen. discriminate.
Qed.

Lemma is_hsv_image_run (img : loc) (w : world) (o : object) :
  heap w !! img = Some o ->
  _is_hsv_image img w = (inr (admissibleb (shape (arr o))), w).
Proof. exact (is_hls_image_run img w o). Qed.

Lemma cv_cvtColor_run (img : loc) (code : Z) (w : world) (o : object) :
  heap w !! img = Some o ->
  cv_cvtColor img code w =
  match cvtColor_fn (arr o) code with
  | inl e => (inl e, mk_world (heap w) (calls w ++ [CvtColor img code]))
  | inr a => (inr (length (heap w)),
              mk_world (heap w ++ [mk_object a None]) (calls w ++ [CvtColor img code]))
  end.
Proof.
  intros Hl. unfold cv_cvtColor. rewrite run_bind. simpl.
  rewrite run_bind, (deref_run _ (mk_world (heap w) _) o Hl).
  rewrite run_bind. unfold lift. destruct (cvtColor_fn (arr o) code); reflexivity.
Qed.

Lemma to_tensor_run (x : loc) (cs : string) (w : world) (o : object) :
  heap w !! x = Some o ->
  to_tensor x cs w =
  (inr (length (heap w)),
   mk_world (heap w ++ [mk_object (arr o) (Some cs)]) (calls w ++ [ToTensor x cs])).
Proof.
  intros Hl. unfold to_tensor. rewrite run_bind. simpl.
  rewrite run_bind, (deref_run _ (mk_world (heap w) _) o Hl). reflexivity.
Qed.

Lemma sibling_run (c : call) (f : object -> exn + object) (x : loc)
      (w : world) (o : object) :
  heap w !! x = Some o ->
  sibling c f x w =
  match f o with
  | inl e => (inl e, mk_world (heap w) (calls w ++ [c]))
  | inr r => (inr (length (heap w)), mk_world (heap w ++ [r]) (calls w ++ [c]))
  end.
Proof.
  intros Hl. unfold sibling. rewrite run_bind. simpl.
  rewrite run_bind, (deref_run _ (mk_world (heap w) _) o Hl).
  rewrite run_bind. unfold lift. destruct (f o); reflexivity.
Qed.

Lemma from_bgr_run (c : conversion) (x : loc) (w : world) (o : object) :
  heap w !! x = Some o ->
  from_bgr c x w =
  match from_bgr_fn c o with
  | inl e => (inl e, mk_world (heap w) (calls w ++ [from_bgr_call c x]))
  | inr r => (inr (length (heap w)),
              mk_world (heap w ++ [r]) (calls w ++ [from_bgr_call c x]))
  end.
Proof.
  intros Hl. destruct c; apply (sibling_run _ _ _ _ _ Hl).
Qed.

(** *** The shape gate *)

Lemma validator_run (c : conversion) (img : loc) (w : world) (o : object) :
  heap w !! img = Some o ->
  validator c img w = (inr (admissibleb (shape (arr o))), w).
Proof. intros Hl. destruct c; apply (is_hls_image_run _ _ _ Hl). Qed.

Lemma convert_rejected (c : conversion) (img : loc) (w : world) (o : object) :
  heap w !! img = Some o ->
  admissibleb (shape (arr o)) = false ->
  convert c img w =
  (inl (ValueError (shape_message (source_name c) (message_destination c)
                      (length (shape (arr o))))), w).
Proof.
  intros Hl Hs.
  destruct c; unfold convert, hls2rgb, hls2bgr, hls2lab, hls2gray, hls2hsv,
    hsv2rgb, hsv2bgr, hsv2lab, hsv2gray, hsv2hls;
    rewrite run_bind;
    rewrite ?(is_hls_image_run _ _ _ Hl), ?(is_hsv_image_run _ _ _ Hl), Hs;
    cbn [negb]; rewrite run_bind, (get_shape_run _ _ _ Hl); reflexivity.
Qed.

(** *** Past the gate *)

Lemma to_bgr_run (c : conversion) (img : loc) (w : world) (o : object) :
  heap w !! img = Some o ->
  admissibleb (shape (arr o)) = true ->
  to_bgr c img w =
  match cvtColor_fn (arr o) (to_bgr_code c) with
  | inl e => (inl e, mk_world (heap w) (calls w ++ [CvtColor img (to_bgr_code c)]))
  | inr a =>
      (inr (S (length (heap w))),
       mk_world (heap w ++ [mk_object a None; mk_object a (Some "bgr"%string)])
                (calls w ++ [CvtColor img (to_bgr_code c);
                             ToTensor (length (heap w)) "bgr"]))
  end.
Proof.
  intros Hl Hs.
  assert (Hgo : forall code,
    (cv_cvtColor img code ≫= λ im, to_tensor im "bgr") w =
    match cvtColor_fn (arr o) code with
    | inl e => (inl e, mk_world (heap w) (calls w ++ [CvtColor img code]))
    | inr a =>
        (inr (S (length (heap w))),
         mk_world (heap w ++ [mk_object a None; mk_object a (Some "bgr"%string)])
                  (calls w ++ [CvtColor img code; ToTensor (length (heap w)) "bgr"]))
    end).
  { intros code. rewrite run_bind, (cv_cvtColor_run _ _ _ _ Hl).
    destruct (cvtColor_fn (arr o) code) as [e|a]; [reflexivity|].
    erewrite to_tensor_run by apply lookup_alloc.
    cbn [heap calls arr]. rewrite length_app, <- !app_assoc. cbn [length app].
    rewrite Nat.add_1_r. reflexivity. }
  destruct c; unfold to_bgr, to_bgr_code, hls2bgr, hsv2bgr;
    rewrite run_bind;
    rewrite ?(is_hls_image_run _ _ _ Hl), ?(is_hsv_image_run _ _ _ Hl), Hs;
    cbn [negb]; apply Hgo.
Qed.

Lemma direct_run (c : conversion) (img : loc) (w : world) (o : object) :
  chained c = false ->
  heap w !! img = Some o ->
  admissibleb (shape (arr o)) = true ->
  convert c img w =
  match cvtColor_fn (arr o) (cvt_code c) with
  | inl e => (inl e, mk_world (heap w) (calls w ++ [CvtColor img (cvt_code c)]))
  | inr a =>
      (inr (S (length (heap w))),
       mk_world (heap w ++ [mk_object a None; mk_object a (Some (destination c))])
                (calls w ++ [CvtColor img (cvt_code c);
                             ToTensor (length (heap w)) (destination c)]))
  end.
Proof.
  intros Hc Hl Hs.
  destruct c; try discriminate Hc;
    try (apply (to_bgr_run Hls2bgr _ _ _ Hl Hs));
    try (apply (to_bgr_run Hsv2bgr _ _ _ Hl Hs));
    unfold convert, hls2rgb, hsv2rgb, cvt_code, destination;
    rewrite run_bind;
    rewrite ?(is_hls_image_run _ _ _ Hl), ?(is_hsv_image_run _ _ _ Hl), Hs;
    cbn [negb]; rewrite run_bind, (cv_cvtColor_run _ _ _ _ Hl);
    (match goal with |- context [cvtColor_fn ?a ?k] =>
       destruct (cvtColor_fn a k) as [e|b]; [reflexivity|] end);
    erewrite to_tensor_run by apply lookup_alloc;
    cbn [heap calls arr]; rewrite length_app, <- !app_assoc; cbn [length app];
    rewrite Nat.add_1_r; reflexivity.
Qed.

(** A chained conversion past its gate is its two hops and the final
    wrapping, run one after the other. *)
Lemma chained_unfold (c : conversion) (img : loc) (w : world) (o : object) :
  chained c = true ->
  heap w !! img = Some o ->
  admissibleb (shape (arr o)) = true ->
  convert c img w =
  (bgr ← to_bgr c img; im ← from_bgr c bgr; to_tensor im (destination c)) w.
Proof.
  intros Hc Hl Hs.
  destruct c; try discriminate Hc;
    unfold convert, hls2lab, hls2gray, hls2hsv, hsv2lab, hsv2gray, hsv2hls;
    rewrite run_bind;
    rewrite ?(is_hls_image_run _ _ _ Hl), ?(is_hsv_image_run _ _ _ Hl), Hs;
    reflexivity.
Qed.

Lemma chained_run (c : conversion) (img : loc) (w : world) (o : object) :
  chained c = true ->
  heap w !! img = Some o ->
  admissibleb (shape (arr o)) = true ->
  convert c img w =
  match cvtColor_fn (arr o) (cvt_code c) with
  | inl e => (inl e, mk_world (heap w) (calls w ++ [CvtColor img (cvt_code c)]))
  | inr a =>
      match from_bgr_fn c (mk_object a (Some "bgr"%string)) with
      | inl e =>
          (inl e,
           mk_world (heap w ++ [mk_object a None; mk_object a (Some "bgr"%string)])
                    (calls w ++ [CvtColor img (cvt_code c);
                                 ToTensor (length (heap w)) "bgr";
                                 from_bgr_call c (S (length (heap w)))]))
      | inr g =>
          (inr (S (S (S (length (heap w))))),
           mk_world (heap w ++ [mk_object a None; mk_object a (Some "bgr"%string);
                                g; mk_object (arr g) (Some (destination c))])
                    (calls w ++ [CvtColor img (cvt_code c);
                                 ToTensor (length (heap w)) "bgr";
                                 from_bgr_call c (S (length (heap w)));
                                 ToTensor (S (S (length (heap w)))) (destination c)]))
      end
  end.
Proof.
  intros Hc Hl Hs. rewrite (chained_unfold _ _ _ _ Hc Hl Hs).
  assert (Hk : cvt_code c = to_bgr_code c) by (destruct c; try discriminate Hc; reflexivity).
  rewrite Hk, run_bind, (to_bgr_run _ _ _ _ Hl Hs).
  destruct (cvtColor_fn (arr o) (to_bgr_code c)) as [e|a]; [reflexivity|].
  rewrite run_bind.
  erewrite from_bgr_run by apply lookup_alloc2.
  destruct (from_bgr_fn c _) as [e|g].
  - cbn [heap calls]. rewrite <- !app_assoc. reflexivity.
  - erewrite to_tensor_run by apply lookup_alloc.
    cbn [heap calls arr]. rewrite !length_app, <- !app_assoc. cbn [length app].
    rewrite ?Nat.add_1_r.
    replace (length (heap w) + 2) with (S (S (length (heap w)))) by lia.
    reflexivity.
Qed.

End Running.

(** ** Consequences shared by the properties below *)

(** Splits a call past the gate into its possible courses: OpenCV fails,
    the BGR module fails, or the call returns. *)
Ltac courses c Hl Hs :=
  let Hc := fresh "Hc" in
  destruct (chained c) eqn:Hc;
  [ rewrite (chained_run c _ _ _ Hc Hl Hs);
    destruct (cvtColor_fn _ (cvt_code c)) as [?e|?a];
    [| destruct (from_bgr_fn c _) as [?e|?g] ]
  | rewrite (direct_run c _ _ _ Hc Hl Hs);
    destruct (cvtColor_fn _ (cvt_code c)) as [?e|?a] ].

Section Consequences.

Context `{Collaborators}.

Lemma admissible_inv (s : list nat) :
  admissible s <-> exists h wd, s = [h; wd; 3].
Proof.
  unfold admissible. split.
  - intros [Hlen Hlast].
    destruct s as [|h [|wd [|ch [|? ?]]]]; try discriminate Hlen.
    cbn in Hlast. injection Hlast as ->. eauto.
  - intros (h & wd & ->). split; reflexivity.
Qed.

Lemma log_grows (h : list object) (w : world) (c : call) (cs : list call) :
  mk_world h (calls w ++ c :: cs) <> w.
Proof.
  intros Heq. apply (f_equal (fun x => length (calls x))) in Heq.
  cbn in Heq. rewrite length_app in Heq. cbn in Heq. lia.
Qed.

Lemma convert_dangling (c : conversion) (img : loc) (w : world) :
  heap w !! img = None ->
  convert c img w = (inl (OtherError "AttributeError"), w).
Proof.
  intros Hl.
  destruct c; unfold convert, hls2rgb, hls2bgr, hls2lab, hls2gray, hls2hsv,
    hsv2rgb, hsv2bgr, hsv2lab, hsv2gray, hsv2hls, _is_hls_image, _is_hsv_image,
    get_shape; rewrite !run_bind; unfold deref; rewrite Hl; reflexivity.
Qed.

Lemma rejected_iff (c : conversion) (img : loc) (w : world) (o : object) :
  heap w !! img = Some o ->
  shape_rejected (convert c img w) w <-> ~ admissible (shape (arr o)).
Proof.
  intros Hl. split.
  - intros [msg Hr] Hs. apply admissibleb_spec in Hs. revert Hr.
    courses c Hl Hs; intros Hr; injection Hr as _ Hw;
      exact (log_grows _ _ _ _ Hw).
  - intros Hs. apply admissibleb_false in Hs.
    eexists. apply (convert_rejected _ _ _ _ Hl Hs).
Qed.

(** A call only ever adds to the store: every object keeps its reference
    and its contents. *)
Lemma convert_frame (c : conversion) (img : loc) (w : world) (l : loc) (x : object) :
  heap w !! l = Some x -> heap (convert c img w).2 !! l = Some x.
Proof.
  intros Hx.
  destruct (heap w !! img) as [o|] eqn:Hl;
    [| rewrite (convert_dangling _ _ _ Hl); exact Hx].
  destruct (admissibleb (shape (arr o))) eqn:Hs;
    [| rewrite (convert_rejected _ _ _ _ Hl Hs); exact Hx].
  courses c Hl Hs; cbn [snd heap]; try exact Hx; apply lookup_old, Hx.
Qed.

(** The second hop of a chained conversion under the shape contract. *)
Lemma from_bgr_keeps (c : conversion) (x g : object) :
  shape_contract ->
  chained c = true ->
  admissible (shape (arr x)) ->
  from_bgr_fn c x = inr g ->
  spatial (shape (arr g)) = spatial (shape (arr x)) /\
  (destination c <> "gray"%string -> admissible (shape (arr g))).
Proof.
  intros [Hcvt Hgray Hcol] Hc Hx Hg.
  destruct c; try discriminate Hc; cbn [from_bgr_fn destination] in *;
    first
      [ split; [apply (Hgray _ _ Hx Hg) | intros Hne; exfalso; apply Hne; reflexivity]
      | match type of Hg with
        | ?f _ = _ =>
            assert (Hin : In f [bgr2hsv_fn; bgr2hls_fn; bgr2lab_fn])
              by (cbn; repeat ((left; reflexivity) || right))
        end;
        destruct (Hcol _ _ _ Hin Hx Hg) as [Hadm Hsp];
        split; [exact Hsp | intros _; exact Hadm] ].
Qed.

(** What a call returns is a function of the buffer it is given. *)
Lemma convert_outcome (c : conversion) (i1 i2 : loc) (w1 w2 : world) (o1 o2 : object) :
  heap w1 !! i1 = Some o1 ->
  heap w2 !! i2 = Some o2 ->
  arr o1 = arr o2 ->
  outcome (convert c i1 w1) = outcome (convert c i2 w2).
Proof.
  intros Hl1 Hl2 Ha.
  destruct (admissibleb (shape (arr o1))) eqn:Hs1.
  - assert (Hs2 : admissibleb (shape (arr o2)) = true) by (rewrite <- Ha; exact Hs1).
    destruct (chained c) eqn:Hc.
    + rewrite (chained_run c _ _ _ Hc Hl1 Hs1), (chained_run c _ _ _ Hc Hl2 Hs2), Ha.
      destruct (cvtColor_fn _ _) as [e|a]; [reflexivity|].
      destruct (from_bgr_fn c _) as [e|g]; [reflexivity|].
      cbn [outcome heap].
      rewrite !(lookup_app_r (heap _)) by lia.
      replace (S (S (S (length (heap w1)))) - length (heap w1)) with 3 by lia.
      replace (S (S (S (length (heap w2)))) - length (heap w2)) with 3 by lia.
      reflexivity.
    + rewrite (direct_run c _ _ _ Hc Hl1 Hs1), (direct_run c _ _ _ Hc Hl2 Hs2), Ha.
      destruct (cvtColor_fn _ _) as [e|a]; [reflexivity|].
      cbn [outcome heap]. rewrite !lookup_alloc2. reflexivity.
  - assert (Hs2 : admissibleb (shape (arr o2)) = false) by (rewrite <- Ha; exact Hs1).
    rewrite (convert_rejected _ _ _ _ Hl1 Hs1), (convert_rejected _ _ _ _ Hl2 Hs2), Ha.
    reflexivity.
Qed.

End Consequences.

(** ** Properties of the ten conversions *)

Section Properties.

Context `{Collaborators}.

(** C1. The validator answers true exactly on shapes of three dimensions
    whose last one is 3, and changes nothing; on every other shape each of
    the ten conversions raises [ValueError] and leaves the world as it was,
    so no call reaches OpenCV or any other collaborator. *)
Theorem shape_gate (img : loc) (w : world) (o : object) :
  heap w !! img = Some o ->
  (exists b : bool,
      _is_hls_image img w = (inr b, w) /\
      _is_hsv_image img w = (inr b, w) /\
      (b = true <->
       length (shape (arr o)) = 3 /\ last (shape (arr o)) = Some 3)) /\
  (length (shape (arr o)) <> 3 \/ last (shape (arr o)) <> Some 3 ->
   forall c : conversion,
     (exists msg, convert c img w = (inl (ValueError msg), w)) /\
     calls (convert c img w).2 = calls w /\
     heap (convert c img w).2 = heap w).
Proof.
  intros Hl. split.
  - exists (admissibleb (shape (arr o))).
    split; [apply (is_hls_image_run _ _ _ Hl)|].
    split; [apply (is_hsv_image_run _ _ _ Hl)|].
    apply admissibleb_spec.
  - intros Hbad c.
    assert (Hs : admissibleb (shape (arr o)) = false).
    { apply admissibleb_false. intros [Hlen Hlast]. destruct Hbad; contradiction. }
    rewrite (convert_rejected _ _ _ _ Hl Hs). eauto.
Qed.

(** C2, at the input where it fails: on a two-dimensional array [hls2hsv]
    raises the shape error with the expected and the found dimensionality,
    but the message names the LAB conversion and never mentions HSV. *)
Theorem hls2hsv_message_names_lab :
  hls2hsv 1 Demo.w0 =
  (inl (ValueError "Tensor of shape 3 expected. Found shape 2. This function converts a HLS Tensor to its LAB counterpart"),
   Demo.w0) /\
  String.index 0 "HSV"
    "Tensor of shape 3 expected. Found shape 2. This function converts a HLS Tensor to its LAB counterpart"
  = None /\
  message_destination Hls2hsv <> destination_name Hls2hsv.
Proof. split; [reflexivity|]. split; [reflexivity|]. discriminate. Qed.

(** X1. The other nine call sites name their own conversion: the message
    carries the expected dimensionality, the one found, and the source and
    destination of the function that raised it. *)
Lemma message_names_conversion (c : conversion) (img : loc) (w : world) (o : object) :
  c <> Hls2hsv ->
  heap w !! img = Some o ->
  ~ admissible (shape (arr o)) ->
  convert c img w =
  (inl (ValueError (shape_message (source_name c) (destination_name c)
                      (length (shape (arr o))))), w).
Proof.
  intros Hc Hl Hs. apply admissibleb_false in Hs.
  rewrite (convert_rejected _ _ _ _ Hl Hs).
  destruct c; try reflexivity. contradiction.
Qed.

(** C10. Whether a conversion rejects its input at the gate is decided by
    the shape alone: two inputs of equal shape are both rejected or both
    let through, whatever their pixels, element type and tag; a shape
    (h, w, 3) is let through for every h and w; and the two validators are
    the same function. *)
Theorem admission_by_shape_only (c : conversion) (i1 i2 : loc) (w1 w2 : world)
        (o1 o2 : object) :
  heap w1 !! i1 = Some o1 ->
  heap w2 !! i2 = Some o2 ->
  shape (arr o1) = shape (arr o2) ->
  (shape_rejected (convert c i1 w1) w1 <-> shape_rejected (convert c i2 w2) w2) /\
  (forall h wd, shape (arr o1) = [h; wd; 3] ->
                ~ shape_rejected (convert c i1 w1) w1) /\
  (forall img w, _is_hls_image img w = _is_hsv_image img w).
Proof.
  intros Hl1 Hl2 Hsh. split; [|split].
  - rewrite (rejected_iff _ _ _ _ Hl1), (rejected_iff _ _ _ _ Hl2), Hsh. reflexivity.
  - intros h wd Hs. rewrite (rejected_iff _ _ _ _ Hl1). intros Hn. apply Hn.
    apply admissible_inv. eauto.
  - reflexivity.
Qed.

(** C3. On every input that passes the shape check, [hls2gray] and
    [bgr2gray] after [hls2bgr] end the same way: the same exception, or
    results holding the same buffer, shape, element type and elements
    alike. *)
Theorem hls2gray_is_chain (img : loc) (w : world) (o : object) :
  heap w !! img = Some o ->
  admissible (shape (arr o)) ->
  outcome_buffer (hls2gray img w) = outcome_buffer ((hls2bgr img ≫= bgr2gray) w) /\
  (forall r w', hls2gray img w = (inr r, w') ->
                exists b, outcome_buffer (hls2gray img w) = inr (Some b)).
Proof.
  intros Hl Hs. apply admissibleb_spec in Hs.
  change (hls2gray img w) with (convert Hls2gray img w).
  rewrite (chained_run Hls2gray _ _ _ eq_refl Hl Hs), run_bind.
  change (hls2bgr img w) with (to_bgr Hls2gray img w).
  rewrite (to_bgr_run Hls2gray _ _ _ Hl Hs).
  change (cvt_code Hls2gray) with (to_bgr_code Hls2gray).
  destruct (cvtColor_fn (arr o) (to_bgr_code Hls2gray)) as [e|a];
    [split; [reflexivity | discriminate]|].
  change bgr2gray with (from_bgr Hls2gray).
  erewrite from_bgr_run by apply lookup_alloc2.
  destruct (from_bgr_fn Hls2gray _) as [e|g];
    [split; [reflexivity | discriminate]|].
  unfold outcome_buffer, outcome. cbn [heap]. rewrite <- !app_assoc. cbn [app].
  rewrite (lookup_new (heap w) _ _ 3) by lia.
  rewrite (lookup_new (heap w) _ _ 2) by (rewrite length_app; cbn; lia).
  cbn. split; [reflexivity | eauto].
Qed.

(** C4. Whenever one of the ten conversions returns, the container it
    returns carries the tag of the function's declared destination. *)
Theorem tag_correct (c : conversion) (img : loc) (w w' : world) (r : loc) :
  convert c img w = (inr r, w') ->
  exists o', heap w' !! r = Some o' /\ cspace o' = Some (destination c).
Proof.
  destruct (heap w !! img) as [o|] eqn:Hl;
    [| rewrite (convert_dangling _ _ _ Hl); discriminate].
  destruct (admissibleb (shape (arr o))) eqn:Hs;
    [| rewrite (convert_rejected _ _ _ _ Hl Hs); discriminate].
  courses c Hl Hs; intros Hr; try discriminate Hr; injection Hr as <- <-;
    cbn [heap]; eexists.
  - split; [rewrite (lookup_new (heap w) _ _ 3) by lia; reflexivity | reflexivity].
  - split; [apply lookup_alloc2 | reflexivity].
Qed.

(** C5. Past the shape check a chained conversion is a pipeline of two
    hops: the module's own converter to BGR runs on the input, the BGR
    module's function for the destination runs on what the first hop
    returned, and the call returns the second hop's buffer under the
    destination's tag. The call log shows the hops in that order. *)
Theorem two_hop_pipeline (c : conversion) (img : loc) (w : world) (o : object) :
  chained c = true ->
  heap w !! img = Some o ->
  admissible (shape (arr o)) ->
  convert c img w =
  (bgr ← to_bgr c img; im ← from_bgr c bgr; to_tensor im (destination c)) w /\
  (forall r w', convert c img w = (inr r, w') ->
     exists bgr w1 im w2,
       to_bgr c img w = (inr bgr, w1) /\
       from_bgr c bgr w1 = (inr im, w2) /\
       to_tensor im (destination c) w2 = (inr r, w') /\
       arr <$> heap w' !! r = arr <$> heap w2 !! im /\
       is_Some (heap w2 !! im) /\
       exists raw,
         calls w' = calls w ++ [CvtColor img (to_bgr_code c); ToTensor raw "bgr";
                                from_bgr_call c bgr; ToTensor im (destination c)]).
Proof.
  intros Hc Hl Hs. apply admissibleb_spec in Hs.
  split; [apply (chained_unfold _ _ _ _ Hc Hl Hs)|].
  assert (Hk : cvt_code c = to_bgr_code c)
    by (destruct c; try discriminate Hc; reflexivity).
  intros r w'. rewrite (chained_run _ _ _ _ Hc Hl Hs), Hk, (to_bgr_run _ _ _ _ Hl Hs).
  destruct (cvtColor_fn (arr o) (to_bgr_code c)) as [e|a]; [discriminate|].
  destruct (from_bgr_fn c _) as [e|g] eqn:Hg; [discriminate|].
  intros Hr. injection Hr as <- <-.
  eexists _, _, _, _. split; [reflexivity|].
  split. { erewrite from_bgr_run by apply lookup_alloc2. rewrite Hg. reflexivity. }
  cbn [heap calls]. rewrite <- !app_assoc. cbn [app].
  assert (Hlen : length (heap w ++ [mk_object a None; mk_object a (Some "bgr"%string)])
                 = S (S (length (heap w))))
    by (rewrite length_app; cbn; lia).
  assert (Hg2 : (heap w ++ [mk_object a None; mk_object a (Some "bgr"%string); g])
                !! length (heap w ++ [mk_object a None; mk_object a (Some "bgr"%string)])
                = Some g).
  { rewrite (lookup_new (heap w) _ _ 2) by (rewrite Hlen; lia). reflexivity. }
  split.
  { erewrite to_tensor_run by (cbn [heap]; exact Hg2).
    cbn [heap calls]. rewrite !length_app, <- !app_assoc. cbn [length app].
    repeat f_equal; lia. }
  split.
  { rewrite (lookup_new (heap w) _ _ 3) by lia.
    rewrite (lookup_new (heap w) _ _ 2) by (rewrite Hlen; lia). reflexivity. }
  split.
  { rewrite (lookup_new (heap w) _ _ 2) by (rewrite Hlen; lia). cbn. eauto. }
  exists (length (heap w)). rewrite Hlen. reflexivity.
Qed.

(** C6, as the code has it. Past the shape check of a chained conversion
    the inner converter to BGR never raises the shape error: it goes
    straight to OpenCV. The first hop returns whenever OpenCV converts the
    buffer, and when OpenCV raises, that exception is what the first hop
    and the whole conversion raise. *)
Theorem inner_gate_unreachable (c : conversion) (img : loc) (w : world) (o : object) :
  chained c = true ->
  heap w !! img = Some o ->
  admissible (shape (arr o)) ->
  to_bgr c img w = (im ← cv_cvtColor img (to_bgr_code c); to_tensor im "bgr") w /\
  ~ shape_rejected (to_bgr c img w) w /\
  (forall a, cvtColor_fn (arr o) (to_bgr_code c) = inr a ->
             exists bgr w1, to_bgr c img w = (inr bgr, w1)) /\
  (forall e, cvtColor_fn (arr o) (to_bgr_code c) = inl e ->
             exists w1, to_bgr c img w = (inl e, w1) /\
                        convert c img w = (inl e, w1) /\
                        calls w1 = calls w ++ [CvtColor img (to_bgr_code c)]).
Proof.
  intros Hc Hl Hs. apply admissibleb_spec in Hs.
  assert (Hk : cvt_code c = to_bgr_code c)
    by (destruct c; try discriminate Hc; reflexivity).
  split.
  { destruct c; unfold to_bgr, to_bgr_code, hls2bgr, hsv2bgr; rewrite run_bind;
      rewrite ?(is_hls_image_run _ _ _ Hl), ?(is_hsv_image_run _ _ _ Hl), Hs;
      reflexivity. }
  rewrite (chained_run _ _ _ _ Hc Hl Hs), Hk, (to_bgr_run _ _ _ _ Hl Hs).
  split.
  { intros [msg Hr]. destruct (cvtColor_fn (arr o) (to_bgr_code c)); [|discriminate].
    injection Hr as _ Hw. exact (log_grows _ _ _ _ Hw). }
  split.
  - intros a ->. eauto.
  - intros e ->. eauto.
Qed.

(** C7. When OpenCV and the BGR module keep height and width, so does
    every one of the ten conversions: on an input that passes the shape
    check, the returned buffer has the input's height and width, and three
    channels unless the destination is grayscale. *)
Theorem shape_preserved (c : conversion) (img : loc) (w w' : world)
        (o : object) (r : loc) :
  shape_contract ->
  heap w !! img = Some o ->
  admissible (shape (arr o)) ->
  convert c img w = (inr r, w') ->
  exists o', heap w' !! r = Some o' /\
             spatial (shape (arr o')) = spatial (shape (arr o)) /\
             (destination c <> "gray"%string -> channels (shape (arr o')) = Some 3).
Proof.
  intros Hk Hl Hs. pose proof Hk as [Hcvt Hgray Hcol].
  assert (Hch : forall s, admissible s -> channels s = Some 3).
  { intros s Hadm. apply admissible_inv in Hadm as (h & wd & ->). reflexivity. }
  assert (Hin : In (cvt_code c) [HLS2BGR; HLS2RGB; HSV2BGR; HSV2RGB])
    by (destruct c; cbn; repeat ((left; reflexivity) || right)).
  pose proof Hs as Hb. apply admissibleb_spec in Hb.
  destruct (chained c) eqn:Hc.
  - rewrite (chained_run c _ _ _ Hc Hl Hb).
    destruct (cvtColor_fn (arr o) (cvt_code c)) as [e|a] eqn:Ha; [discriminate|].
    destruct (Hcvt _ _ _ Hin Hs Ha) as [Hadm Hsp].
    destruct (from_bgr_fn c _) as [e|g] eqn:Hg; [discriminate|].
    intros Hr. injection Hr as <- <-. cbn [heap].
    exists (mk_object (arr g) (Some (destination c))).
    split; [rewrite (lookup_new (heap w) _ _ 3) by lia; reflexivity|].
    cbn [arr]. rewrite <- Hsp.
    destruct (from_bgr_keeps c (mk_object a (Some "bgr"%string)) g Hk Hc Hadm Hg)
      as [Hsp' Hadm'].
    split; [exact Hsp' | intros Hne; apply Hch, Hadm', Hne].
  - rewrite (direct_run c _ _ _ Hc Hl Hb).
    destruct (cvtColor_fn (arr o) (cvt_code c)) as [e|a] eqn:Ha; [discriminate|].
    destruct (Hcvt _ _ _ Hin Hs Ha) as [Hadm Hsp].
    intros Hr. injection Hr as <- <-. cbn [heap].
    exists (mk_object a (Some (destination c))).
    split; [apply lookup_alloc2|]. split; [exact Hsp|]. intros _. apply Hch, Hadm.
Qed.

(** C8. A conversion never writes to its input. Every object of the store,
    the input among them, is after the call what it was before; a call
    that returns, returns a container that did not exist before the call,
    so never the input; and a call that fails the shape check changes
    nothing at all and returns nothing. *)
Theorem input_untouched (c : conversion) (img : loc) (w : world) (o : object) :
  heap w !! img = Some o ->
  heap (convert c img w).2 !! img = Some o /\
  (forall l x, heap w !! l = Some x -> heap (convert c img w).2 !! l = Some x) /\
  (forall r, (convert c img w).1 = inr r ->
             r <> img /\ heap w !! r = None /\ is_Some (heap (convert c img w).2 !! r)) /\
  (~ admissible (shape (arr o)) ->
   (convert c img w).2 = w /\ exists msg, (convert c img w).1 = inl (ValueError msg)).
Proof.
  intros Hl.
  split; [apply convert_frame, Hl|].
  split; [intros l x; apply convert_frame|].
  split.
  - intros r. pose proof (lookup_lt_Some _ _ _ Hl) as Hlt.
    destruct (admissibleb (shape (arr o))) eqn:Hs;
      [| rewrite (convert_rejected _ _ _ _ Hl Hs); discriminate].
    courses c Hl Hs; cbn [fst snd heap]; intros Hr; try discriminate Hr;
      injection Hr as <-;
      (split; [lia|]); (split; [apply lookup_ge_None; lia|]).
    + rewrite (lookup_new (heap w) _ _ 3) by lia. cbn. eauto.
    + rewrite lookup_alloc2. eauto.
  - intros Hs. apply admissibleb_false in Hs.
    rewrite (convert_rejected _ _ _ _ Hl Hs). cbn. eauto.
Qed.

(** C9. A conversion is deterministic. Called a second time on the same
    input, right after the first call, it ends the same way: the same
    exception, or a container with the same buffer and the same tag. The
    same holds for any other reference to a container with the same buffer,
    in any other state of the store. Nothing that existed before the call
    is changed by it. *)
Theorem deterministic (c : conversion) (img : loc) (w : world) (o : object) :
  heap w !! img = Some o ->
  outcome (convert c img (convert c img w).2) = outcome (convert c img w) /\
  (forall i2 w2 o2, heap w2 !! i2 = Some o2 -> arr o2 = arr o ->
                    outcome (convert c i2 w2) = outcome (convert c img w)) /\
  (forall l x, heap w !! l = Some x -> heap (convert c img w).2 !! l = Some x).
Proof.
  intros Hl. split; [|split].
  - apply (convert_outcome c _ _ _ _ o o); [apply convert_frame, Hl | exact Hl | reflexivity].
  - intros i2 w2 o2 Hl2 Ha. apply (convert_outcome c _ _ _ _ o2 o Hl2 Hl Ha).
  - intros l x. apply convert_frame.
Qed.

End Properties.

(** ** Further properties: exceptions, results, calls, composition *)

Section Further.

Context `{Collaborators}.

(** X2. A three-dimensional input whose last dimension is not 3 (four channels,
    say) is rejected by every conversion with a message that reports the
    dimensionality it asked for: expected 3, found 3. *)
Theorem wrong_channels_message (c : conversion) (img : loc) (w : world) (o : object) :
  heap w !! img = Some o ->
  length (shape (arr o)) = 3 ->
  last (shape (arr o)) <> Some 3 ->
  exists rest : string,
    convert c img w =
    (inl (ValueError ("Tensor of shape 3 expected. Found shape 3" ++ rest)%string), w).
Proof.
  intros Hl Hlen Hlast.
  assert (Hs : admissibleb (shape (arr o)) = false).
  { apply admissibleb_false. intros [_ Hc]. contradiction. }
  rewrite (convert_rejected _ _ _ _ Hl Hs), Hlen.
  eexists. unfold shape_message. cbn [str Nat.to_uint]. reflexivity.
Qed.

(** X3. When OpenCV raises on an input that passed the shape check, the
    conversion, direct or chained, raises that very exception: it was the
    only call made, no container was created, and [to_tensor] and the BGR
    module were never reached. *)
Theorem native_error_propagates (c : conversion) (img : loc) (w : world)
        (o : object) (e : exn) :
  heap w !! img = Some o ->
  admissible (shape (arr o)) ->
  cvtColor_fn (arr o) (cvt_code c) = inl e ->
  convert c img w =
  (inl e, mk_world (heap w) (calls w ++ [CvtColor img (cvt_code c)])).
Proof.
  intros Hl Hs He. apply admissibleb_spec in Hs.
  destruct (chained c) eqn:Hc.
  - rewrite (chained_run _ _ _ _ Hc Hl Hs), He. reflexivity.
  - rewrite (direct_run _ _ _ _ Hc Hl Hs), He. reflexivity.
Qed.

(** X4. When the first hop of a chained conversion succeeds and the BGR module
    raises, the conversion raises that very exception. The BGR function was
    called on the container the first hop returned, the final [to_tensor] was
    never called, and the store holds the two objects of the first hop. *)
Theorem second_hop_error_propagates (c : conversion) (img : loc) (w : world)
        (o : object) (a : ndarray) (e : exn) :
  chained c = true ->
  heap w !! img = Some o ->
  admissible (shape (arr o)) ->
  cvtColor_fn (arr o) (to_bgr_code c) = inr a ->
  from_bgr_fn c (mk_object a (Some "bgr"%string)) = inl e ->
  convert c img w =
  (inl e,
   mk_world (heap w ++ [mk_object a None; mk_object a (Some "bgr"%string)])
            (calls w ++ [CvtColor img (to_bgr_code c);
                         ToTensor (length (heap w)) "bgr";
                         from_bgr_call c (S (length (heap w)))])).
Proof.
  intros Hc Hl Hs Ha He. apply admissibleb_spec in Hs.
  assert (Hk : cvt_code c = to_bgr_code c)
    by (destruct c; try discriminate Hc; reflexivity).
  rewrite (chained_run _ _ _ _ Hc Hl Hs), Hk, Ha, He. reflexivity.
Qed.

(** X5. Every exception a conversion raises on an existing input is one of
    three: its own shape error, raised on an inadmissible shape with nothing
    changed; the exception OpenCV raised; or, for a chained conversion, the
    exception the BGR module raised. No exception is caught or translated,
    and none originates anywhere else. *)
Theorem exceptions_classified (c : conversion) (img : loc) (w w' : world)
        (o : object) (e : exn) :
  heap w !! img = Some o ->
  convert c img w = (inl e, w') ->
  (~ admissible (shape (arr o)) /\ w' = w /\
   e = ValueError (shape_message (source_name c) (message_destination c)
                     (length (shape (arr o))))) \/
  (admissible (shape (arr o)) /\ cvtColor_fn (arr o) (cvt_code c) = inl e) \/
  (admissible (shape (arr o)) /\ chained c = true /\
   exists a, cvtColor_fn (arr o) (cvt_code c) = inr a /\
             from_bgr_fn c (mk_object a (Some "bgr"%string)) = inl e).
Proof.
  intros Hl.
  destruct (admissibleb (shape (arr o))) eqn:Hs.
  - pose proof (proj1 (admissibleb_spec _) Hs) as Hadm.
    destruct (chained c) eqn:Hc.
    + rewrite (chained_run _ _ _ _ Hc Hl Hs).
      destruct (cvtColor_fn (arr o) (cvt_code c)) as [e1|a] eqn:Ha.
      * intros Hr. injection Hr as -> _. right. left. split; [exact Hadm | reflexivity].
      * destruct (from_bgr_fn c _) as [e2|g] eqn:Hg; [|discriminate].
        intros Hr. injection Hr as -> _. right. right. eauto.
    + rewrite (direct_run _ _ _ _ Hc Hl Hs).
      destruct (cvtColor_fn (arr o) (cvt_code c)) as [e1|a] eqn:Ha; [|discriminate].
      intros Hr. injection Hr as -> _. right. left. split; [exact Hadm | reflexivity].
  - rewrite (convert_rejected _ _ _ _ Hl Hs). intros Hr. injection Hr as <- <-.
    left. split; [apply admissibleb_false, Hs | split; reflexivity].
Qed.

(** X6. A conversion returns exactly when the shape is admissible, OpenCV
    converts the buffer and, for a chained conversion, the BGR module
    converts the intermediate container. *)
Theorem returns_iff (c : conversion) (img : loc) (w : world) (o : object) :
  heap w !! img = Some o ->
  (exists r w', convert c img w = (inr r, w')) <->
  admissible (shape (arr o)) /\
  exists a, cvtColor_fn (arr o) (cvt_code c) = inr a /\
            (chained c = true ->
             exists g, from_bgr_fn c (mk_object a (Some "bgr"%string)) = inr g).
Proof.
  intros Hl. split.
  - intros (r & w' & Hr). revert Hr.
    destruct (admissibleb (shape (arr o))) eqn:Hs;
      [| rewrite (convert_rejected _ _ _ _ Hl Hs); discriminate].
    split; [apply admissibleb_spec, Hs|]. revert Hr.
    destruct (chained c) eqn:Hc.
    + rewrite (chained_run _ _ _ _ Hc Hl Hs).
      destruct (cvtColor_fn (arr o) (cvt_code c)) as [e|a]; [discriminate|].
      destruct (from_bgr_fn c _) as [e|g] eqn:Hg; [discriminate|]. eauto.
    + rewrite (direct_run _ _ _ _ Hc Hl Hs).
      destruct (cvtColor_fn (arr o) (cvt_code c)) as [e|a]; [discriminate|].
      intros _. exists a. split; [reflexivity | discriminate].
  - intros (Hs & a & Ha & Hg). apply admissibleb_spec in Hs.
    destruct (chained c) eqn:Hc.
    + destruct (Hg eq_refl) as [g Hg'].
      rewrite (chained_run _ _ _ _ Hc Hl Hs), Ha, Hg'. eauto.
    + rewrite (direct_run _ _ _ _ Hc Hl Hs), Ha. eauto.
Qed.

(** X7. What a conversion returns. A direct conversion returns OpenCV's output
    for the function's own code, untouched, under the destination's tag. A
    chained conversion returns the buffer the BGR module computed from the
    container tagged "bgr" that holds OpenCV's output for the code to BGR.
    The tag of the input plays no part. *)
Theorem result_value (c : conversion) (img : loc) (w w' : world)
        (o : object) (r : loc) :
  heap w !! img = Some o ->
  convert c img w = (inr r, w') ->
  exists a, cvtColor_fn (arr o) (cvt_code c) = inr a /\
    if chained c then
      exists g, from_bgr_fn c (mk_object a (Some "bgr"%string)) = inr g /\
                heap w' !! r = Some (mk_object (arr g) (Some (destination c)))
    else heap w' !! r = Some (mk_object a (Some (destination c))).
Proof.
  intros Hl.
  destruct (admissibleb (shape (arr o))) eqn:Hs;
    [| rewrite (convert_rejected _ _ _ _ Hl Hs); discriminate].
  destruct (chained c) eqn:Hc.
  - rewrite (chained_run _ _ _ _ Hc Hl Hs).
    destruct (cvtColor_fn (arr o) (cvt_code c)) as [e|a]; [discriminate|].
    destruct (from_bgr_fn c _) as [e|g] eqn:Hg; [discriminate|].
    intros Hr. injection Hr as <- <-. exists a. split; [reflexivity|].
    exists g. split; [exact Hg|]. cbn [heap].
    rewrite (lookup_new (heap w) _ _ 3) by lia. reflexivity.
  - rewrite (direct_run _ _ _ _ Hc Hl Hs).
    destruct (cvtColor_fn (arr o) (cvt_code c)) as [e|a]; [discriminate|].
    intros Hr. injection Hr as <- <-. exists a. split; [reflexivity|].
    cbn [heap]. apply lookup_alloc2.
Qed.


(** X9. Conversions compose. When OpenCV and the BGR module keep the shape, the
    container returned by a conversion to a colour space passes the shape
    check of every one of the ten conversions, whichever space it is in: the
    gate cannot tell an RGB, BGR, HSV, HLS or LAB result from its own
    module's input. *)
Theorem colour_result_passes_every_gate (c1 c2 : conversion) (img : loc)
        (w w' : world) (o : object) (r : loc) :
  shape_contract ->
  heap w !! img = Some o ->
  destination c1 <> "gray"%string ->
  convert c1 img w = (inr r, w') ->
  ~ shape_rejected (convert c2 r w') w'.
Proof.
  intros Hk Hl Hd. pose proof Hk as [Hcvt _ _].
  assert (Hin : In (cvt_code c1) [HLS2BGR; HLS2RGB; HSV2BGR; HSV2RGB])
    by (destruct c1; cbn; repeat ((left; reflexivity) || right)).
  destruct (admissibleb (shape (arr o))) eqn:Hs;
    [| rewrite (convert_rejected _ _ _ _ Hl Hs); discriminate].
  pose proof (proj1 (admissibleb_spec _) Hs) as Hadm.
  destruct (chained c1) eqn:Hc.
  - rewrite (chained_run _ _ _ _ Hc Hl Hs).
    destruct (cvtColor_fn (arr o) (cvt_code c1)) as [e|a] eqn:Ha; [discriminate|].
    destruct (Hcvt _ _ _ Hin Hadm Ha) as [Hadm_a _].
    destruct (from_bgr_fn c1 _) as [e|g] eqn:Hg; [discriminate|].
    destruct (from_bgr_keeps c1 (mk_object a (Some "bgr"%string)) g Hk Hc Hadm_a Hg)
      as [_ Hadm_g].
    intros Hr. injection Hr as <- <-.
    erewrite rejected_iff
      by (cbn [heap]; rewrite (lookup_new (heap w) _ _ 3) by lia; reflexivity).
    intros Hn. apply Hn. cbn [arr]. exact (Hadm_g Hd).
  - rewrite (direct_run _ _ _ _ Hc Hl Hs).
    destruct (cvtColor_fn (arr o) (cvt_code c1)) as [e|a] eqn:Ha; [discriminate|].
    destruct (Hcvt _ _ _ Hin Hadm Ha) as [Hadm_a _].
    intros Hr. injection Hr as <- <-.
    erewrite rejected_iff by (cbn [heap]; apply lookup_alloc2).
    intros Hn. apply Hn. exact Hadm_a.
Qed.

End Further.

(** ** The properties at concrete inputs *)

#[local] Existing Instance Demo.collaborators.

Lemma demo_shape_contract : shape_contract.
Proof.
  split.
  - intros a code a' _ Hadm. cbn. unfold Demo.cvt.
    destruct (negb (Demo.supported (elt a))); [discriminate|].
    destruct (forallb (Nat.ltb 0) (shape a)); [|discriminate].
    intros Ha. injection Ha as <-. split; [exact Hadm | reflexivity].
  - intros o g Hadm. cbn. unfold Demo.gray. intros Hg. injection Hg as <-.
    apply admissible_inv in Hadm as (h & wd & ->). reflexivity.
  - intros f o g Hin Hadm Hg.
    apply admissible_inv in Hadm as (h & wd & Hs).
    cbn in Hin. unfold Demo.retag in Hin.
    destruct Hin as [<-|[<-|[<-|[]]]]; injection Hg as <-; cbn; rewrite Hs;
      (split; [apply admissible_inv; eauto | reflexivity]).
Qed.

Lemma shape_gate_witness :
  heap Demo.w0 !! 1 = Some Demo.img2 /\
  forall c, exists msg, convert c 1 Demo.w0 = (inl (ValueError msg), Demo.w0).
Proof.
  split; [reflexivity|]. intros c.
  destruct (shape_gate 1 Demo.w0 Demo.img2 eq_refl) as [_ Hg].
  assert (Hbad : length (shape (arr Demo.img2)) <> 3 \/
                 last (shape (arr Demo.img2)) <> Some 3)
    by (left; cbn; lia).
  destruct (Hg Hbad c) as [Hm _]. exact Hm.
Defined.

Lemma admission_by_shape_only_witness :
  heap Demo.w0 !! 0 = Some Demo.img3 /\
  heap Demo.w0 !! 2 = Some Demo.img64 /\
  shape (arr Demo.img3) = shape (arr Demo.img64) /\
  (shape_rejected (convert Hsv2lab 0 Demo.w0) Demo.w0 <->
   shape_rejected (convert Hsv2lab 2 Demo.w0) Demo.w0).
Proof.
  split; [reflexivity|]. split; [reflexivity|]. split; [reflexivity|].
  exact (proj1 (admission_by_shape_only Hsv2lab 0 2 Demo.w0 Demo.w0 Demo.img3 Demo.img64
                  eq_refl eq_refl eq_refl)).
Defined.

Lemma hls2gray_is_chain_witness :
  heap Demo.w0 !! 0 = Some Demo.img3 /\
  admissible (shape (arr Demo.img3)) /\
  outcome_buffer (hls2gray 0 Demo.w0) =
  outcome_buffer ((hls2bgr 0 ≫= bgr2gray) Demo.w0).
Proof.
  assert (Hadm : admissible (shape (arr Demo.img3))) by (split; reflexivity).
  split; [reflexivity|]. split; [exact Hadm|].
  exact (proj1 (hls2gray_is_chain 0 Demo.w0 Demo.img3 eq_refl Hadm)).
Defined.

Lemma tag_correct_witness :
  exists o', heap (convert Hls2rgb 0 Demo.w0).2 !! 5 = Some o' /\
             cspace o' = Some "rgb"%string.
Proof.
  apply (tag_correct Hls2rgb 0 Demo.w0 (convert Hls2rgb 0 Demo.w0).2 5).
  vm_compute. reflexivity.
Defined.

Lemma two_hop_pipeline_witness :
  chained Hsv2hls = true /\
  heap Demo.w0 !! 0 = Some Demo.img3 /\
  admissible (shape (arr Demo.img3)) /\
  convert Hsv2hls 0 Demo.w0 =
  (bgr ← hsv2bgr 0; im ← bgr2hls bgr; to_tensor im "hls") Demo.w0.
Proof.
  assert (Hadm : admissible (shape (arr Demo.img3))) by (split; reflexivity).
  split; [reflexivity|]. split; [reflexivity|]. split; [exact Hadm|].
  exact (proj1 (two_hop_pipeline Hsv2hls 0 Demo.w0 Demo.img3 eq_refl eq_refl Hadm)).
Defined.

(** C6, as the claim has it, fails: a 2x2x3 buffer of 64-bit floats passes
    the shape check, and the intermediate conversion to BGR inside
    [hls2gray] fails on it, because OpenCV rejects the element type. *)
Lemma intermediate_conversion_fails :
  heap Demo.w0 !! 2 = Some Demo.img64 /\
  admissible (shape (arr Demo.img64)) /\
  _is_hls_image 2 Demo.w0 = (inr true, Demo.w0) /\
  hls2bgr 2 Demo.w0 =
  (inl (OtherError "cv2.error: unsupported depth"),
   mk_world (heap Demo.w0) [CvtColor 2 60]) /\
  hls2gray 2 Demo.w0 =
  (inl (OtherError "cv2.error: unsupported depth"),
   mk_world (heap Demo.w0) [CvtColor 2 60]).
Proof. repeat split. Qed.

Lemma inner_gate_unreachable_witness :
  chained Hls2gray = true /\
  heap Demo.w0 !! 0 = Some Demo.img3 /\
  admissible (shape (arr Demo.img3)) /\
  ~ shape_rejected (hls2bgr 0 Demo.w0) Demo.w0.
Proof.
  assert (Hadm : admissible (shape (arr Demo.img3))) by (split; reflexivity).
  split; [reflexivity|]. split; [reflexivity|]. split; [exact Hadm|].
  exact (proj1 (proj2 (inner_gate_unreachable Hls2gray 0 Demo.w0 Demo.img3
                         eq_refl eq_refl Hadm))).
Defined.

Lemma shape_preserved_witness :
  shape_contract /\
  heap Demo.w0 !! 0 = Some Demo.img3 /\
  admissible (shape (arr Demo.img3)) /\
  exists o', heap (convert Hls2gray 0 Demo.w0).2 !! 7 = Some o' /\
             spatial (shape (arr o')) = [2; 2].
Proof.
  assert (Hadm : admissible (shape (arr Demo.img3))) by (split; reflexivity).
  split; [exact demo_shape_contract|]. split; [reflexivity|]. split; [exact Hadm|].
  assert (Hrun : convert Hls2gray 0 Demo.w0 = (inr 7, (convert Hls2gray 0 Demo.w0).2))
    by (vm_compute; reflexivity).
  destruct (shape_preserved Hls2gray 0 Demo.w0 (convert Hls2gray 0 Demo.w0).2
              Demo.img3 7 demo_shape_contract eq_refl Hadm Hrun)
    as (o' & Ho & Hsp & _).
  exists o'. split; [exact Ho | exact Hsp].
Defined.

Lemma input_untouched_witness :
  heap Demo.w0 !! 0 = Some Demo.img3 /\
  heap (convert Hsv2gray 0 Demo.w0).2 !! 0 = Some Demo.img3.
Proof.
  split; [reflexivity|].
  exact (proj1 (input_untouched Hsv2gray 0 Demo.w0 Demo.img3 eq_refl)).
Defined.

Lemma deterministic_witness :
  heap Demo.w0 !! 0 = Some Demo.img3 /\
  outcome (convert Hsv2rgb 0 (convert Hsv2rgb 0 Demo.w0).2) =
  outcome (convert Hsv2rgb 0 Demo.w0).
Proof.
  split; [reflexivity|].
  exact (proj1 (deterministic Hsv2rgb 0 Demo.w0 Demo.img3 eq_refl)).
Defined.

Lemma message_names_conversion_witness :
  Hsv2gray <> Hls2hsv /\
  heap Demo.w0 !! 1 = Some Demo.img2 /\
  ~ admissible (shape (arr Demo.img2)) /\
  convert Hsv2gray 1 Demo.w0 =
  (inl (ValueError "Tensor of shape 3 expected. Found shape 2. This function converts a HSV Tensor to its Grayscale counterpart"),
   Demo.w0).
Proof.
  assert (Hne : Hsv2gray <> Hls2hsv) by discriminate.
  assert (Hbad : ~ admissible (shape (arr Demo.img2)))
    by (intros [Hlen _]; cbn in Hlen; lia).
  split; [exact Hne|]. split; [reflexivity|]. split; [exact Hbad|].
  exact (message_names_conversion Hsv2gray 1 Demo.w0 Demo.img2 Hne eq_refl Hbad).
Defined.

Lemma wrong_channels_message_witness :
  exists rest : string,
    convert Hls2rgb 0
      (mk_world [mk_object (mk_ndarray [2; 2; 4] uint8 []) None] []) =
    (inl (ValueError ("Tensor of shape 3 expected. Found shape 3" ++ rest)%string),
     mk_world [mk_object (mk_ndarray [2; 2; 4] uint8 []) None] []).
Proof.
  apply (wrong_channels_message Hls2rgb 0
           (mk_world [mk_object (mk_ndarray [2; 2; 4] uint8 []) None] [])
           (mk_object (mk_ndarray [2; 2; 4] uint8 []) None)).
  - reflexivity.
  - reflexivity.
  - cbn. intros Heq. injection Heq as Heq. lia.
Defined.

Lemma native_error_propagates_witness :
  heap Demo.w0 !! 3 = Some Demo.img0 /\
  admissible (shape (arr Demo.img0)) /\
  convert Hsv2rgb 3 Demo.w0 =
  (inl (OtherError "cv2.error: empty source"),
   mk_world (heap Demo.w0) [CvtColor 3 55]).
Proof.
  assert (Hadm : admissible (shape (arr Demo.img0))) by (split; reflexivity).
  split; [reflexivity|]. split; [exact Hadm|].
  exact (native_error_propagates Hsv2rgb 3 Demo.w0 Demo.img0 _ eq_refl Hadm eq_refl).
Defined.

Lemma second_hop_error_propagates_witness :
  heap Demo.w0 !! 0 = Some Demo.img3 /\
  admissible (shape (arr Demo.img3)) /\
  exists w', hsv2hls (H := Demo.refusing) 0 Demo.w0 =
             (inl (OtherError "bgr2hls failed"), w') /\
             calls w' = [CvtColor 0 54; ToTensor 4 "bgr"; Bgr2hls 5].
Proof.
  assert (Hadm : admissible (shape (arr Demo.img3))) by (split; reflexivity).
  split; [reflexivity|]. split; [exact Hadm|].
  eexists. split.
  - exact (second_hop_error_propagates (H := Demo.refusing) Hsv2hls 0 Demo.w0
             Demo.img3 _ _ eq_refl eq_refl Hadm eq_refl eq_refl).
  - reflexivity.
Defined.

Lemma exceptions_classified_witness :
  heap Demo.w0 !! 2 = Some Demo.img64 /\
  admissible (shape (arr Demo.img64)) /\
  cvtColor_fn (arr Demo.img64) (cvt_code Hls2lab) =
  inl (OtherError "cv2.error: unsupported depth").
Proof.
  split; [reflexivity|].
  assert (Hrun : convert Hls2lab 2 Demo.w0 =
                 (inl (OtherError "cv2.error: unsupported depth"),
                  mk_world (heap Demo.w0) [CvtColor 2 60]))
    by (vm_compute; reflexivity).
  destruct (exceptions_classified Hls2lab 2 Demo.w0
              (mk_world (heap Demo.w0) [CvtColor 2 60]) Demo.img64
              (OtherError "cv2.error: unsupported depth") eq_refl Hrun)
    as [[Hn _] | [[Hadm He] | (Hadm & _ & a & Ha & _)]].
  - exfalso. apply Hn. split; reflexivity.
  - split; [exact Hadm | exact He].
  - discriminate Ha.
Defined.

Lemma returns_iff_witness :
  heap Demo.w0 !! 0 = Some Demo.img3 /\
  exists r w', convert Hls2hsv 0 Demo.w0 = (inr r, w').
Proof.
  split; [reflexivity|].
  apply (returns_iff Hls2hsv 0 Demo.w0 Demo.img3 eq_refl).
  split; [split; reflexivity|].
  eexists. split; [reflexivity|]. intros _. eexists. reflexivity.
Defined.

Lemma result_value_witness :
  heap Demo.w0 !! 0 = Some Demo.img3 /\
  exists a, cvtColor_fn (arr Demo.img3) HLS2RGB = inr a /\
            heap (convert Hls2rgb 0 Demo.w0).2 !! 5 = Some (mk_object a (Some "rgb"%string)).
Proof.
  split; [reflexivity|].
  assert (Hrun : convert Hls2rgb 0 Demo.w0 = (inr 5, (convert Hls2rgb 0 Demo.w0).2))
    by (vm_compute; reflexivity).
  exact (result_value Hls2rgb 0 Demo.w0 (convert Hls2rgb 0 Demo.w0).2 Demo.img3 5
           eq_refl Hrun).
Defined.

Lemma colour_result_passes_every_gate_witness :
  shape_contract /\
  heap Demo.w0 !! 0 = Some Demo.img3 /\
  destination Hls2hsv <> "gray"%string /\
  ~ shape_rejected (convert Hsv2hls 7 (convert Hls2hsv 0 Demo.w0).2)
      (convert Hls2hsv 0 Demo.w0).2.
Proof.
  assert (Hd : destination Hls2hsv <> "gray"%string) by discriminate.
  assert (Hrun : convert Hls2hsv 0 Demo.w0 = (inr 7, (convert Hls2hsv 0 Demo.w0).2))
    by (vm_compute; reflexivity).
  split; [exact demo_shape_contract|]. split; [reflexivity|]. split; [exact Hd|].
  exact (colour_result_passes_every_gate Hls2hsv Hsv2hls 0 Demo.w0
           (convert Hls2hsv 0 Demo.w0).2 Demo.img3 7
           demo_shape_contract eq_refl Hd Hrun).
Defined.
